(** * Azure DevOps incoming webhook (zerver/webhooks/azuredevops/view.py)

    A shallow embedding of the view function [api_azuredevops_webhook] and of
    the Python operations it performs on the JSON-decoded payload, together
    with the properties of the handler that the specification states. *)

From Stdlib Require Import ZArith Ascii.
From stdpp Require Import gmap strings list fin_maps.

Local Open Scope Z_scope.
Local Open Scope string_scope.
Local Open Scope list_scope.

(** ** Python values and exceptions *)

Module Py.

(** The values [json.loads] can produce.  A float is kept as its IEEE-754
    binary64 bit pattern: the handler never computes with one. *)
#[warnings="-register-all"]
Inductive value : Type :=
| NoneV
| Bool (b : bool)
| Int (n : Z)
| Float (bits : Z)
| Str (s : string)
| List (l : list value)
| Dict (d : gmap string value).

(** The exceptions that occur in the handler.  [KeyError] carries the key
    that was looked up; [Exception] stands for any other exception class,
    by class name and message. *)
Inductive exn : Type :=
| KeyError (key : string)
| TypeError
| JsonableError (msg : string)
| Exception (cls msg : string).

(** The result of evaluating an expression: a value or a raised exception. *)
Definition result (A : Type) : Type := exn + A.

(** [v[key]] for a [str] key.  Only a dict can be indexed by a string: a
    list or a string asks for integer indices, the other values are not
    subscriptable at all. *)
Definition getitem (v : value) (key : string) : result value :=
  match v with
  | Dict d =>
      match d !! key with
      | Some x => inr x
      | None => inl (KeyError key)
      end
  | _ => inl TypeError
  end.

(** [s + v] for a [str] left operand [s]: [str.__add__] accepts a [str]
    only, and none of the JSON value types has an [__radd__] taking one. *)
Definition str_add (s : string) (v : value) : result string :=
  match v with
  | Str t => inr (s +:+ t)
  | _ => inl TypeError
  end.

Definition is_str (v : value) : bool :=
  match v with Str _ => true | _ => false end.

End Py.

(** The one-character string ['\n']. *)
Definition newline : string := String "010"%char EmptyString.

(** ** Requests, responses and the collaborators of the view *)

Record HttpRequest : Type := {
  request_body : string;
  request_params : gmap string string
}.

Record HttpResponse : Type := {
  status_code : Z;
  content : Py.value
}.

(** What the view does not define itself: the authenticated principal, the
    state of the messaging platform, the JSON decoder and the delivery routine.
    [send_message] is the body of [check_send_webhook_message]: it answers
    [None] when it returns normally and [Some e] when it raises [e]. *)
Class Collaborators : Type := {
  UserProfile : Type;
  World : Type;
  json_loads : string -> option Py.value;
  send_message :
    HttpRequest -> UserProfile -> string -> string -> World ->
    option Py.exn * World
}.

Section View.

Context `{C : Collaborators}.

(** One invocation of the delivery collaborator, with its arguments. *)
Record Delivery : Type := {
  d_request : HttpRequest;
  d_user : UserProfile;
  d_topic : string;
  d_body : string
}.

(** The state a view runs in: the platform's state and the log of the calls
    made to the delivery collaborator so far, oldest first, each with its
    outcome ([None]: accepted, [Some e]: raised [e]). *)
Record State : Type := {
  world : World;
  calls : list (Delivery * option Py.exn)
}.

(** Computations that read and write the state and may raise. *)
Definition M (A : Type) : Type := State -> Py.result A * State.

Definition ret {A} (a : A) : M A := fun st => (inr a, st).

Definition raise {A} (e : Py.exn) : M A := fun st => (inl e, st).

Definition bind {A B} (m : M A) (k : A -> M B) : M B :=
  fun st =>
    match m st with
    | (inr a, st') => k a st'
    | (inl e, st') => (inl e, st')
    end.

Definition lift {A} (r : Py.result A) : M A :=
  match r with
  | inr a => ret a
  | inl e => raise e
  end.

End View.

Notation "'let*' x ':=' m 'in' k" := (bind m (fun x => k))
  (at level 10, x name, m at level 100, k at level 200).

Section Handler.

Context `{C : Collaborators}.

(** [check_send_webhook_message(request, user_profile, topic, body)]: one
    call of the delivery routine, recorded in the log. *)
Definition check_send_webhook_message
    (request : HttpRequest) (user_profile : UserProfile)
    (topic body : string) : M unit :=
  fun st =>
    let '(r, w) := send_message request user_profile topic body (world st) in
    let d := {| d_request := request; d_user := user_profile;
                d_topic := topic; d_body := body |} in
    let st' := {| world := w; calls := calls st ++ [(d, r)] |} in
    match r with
    | None => (inr tt, st')
    | Some e => (inl e, st')
    end.

(** Modelled from the spec: [json_success] (zerver/lib/response.py) is not
    among the sources.  Called without data it is the generic success
    envelope: HTTP 200, [result] is [success] and [msg] is the empty string. *)
Definition json_success : HttpResponse :=
  {| status_code := 200;
     content := Py.Dict (<["result" := Py.Str "success"]>
                         (<["msg" := Py.Str EmptyString]> ∅)) |}.

(** The text the message starts with (line 22). *)
Definition preamble : string := "A new build from Azure DevOps! :smile:".

(** The view function, lines 15 to 32, with its four arguments bound. *)
Definition api_azuredevops_webhook
    (request : HttpRequest) (user_profile : UserProfile)
    (payload : Py.value) (topic : string) : M HttpResponse :=
  let body := preamble in
  let* detailedMessage := lift (Py.getitem payload "detailedMessage") in
  let* markdown := lift (Py.getitem detailedMessage "markdown") in
  let* body_template := lift (Py.str_add newline markdown) in
  let body := body +:+ body_template in
  let* sent := check_send_webhook_message request user_profile topic body in
  ret json_success.

(** Lines 22 to 26 alone: the message text as a function of the payload. *)
Definition message_body (payload : Py.value) : Py.result string :=
  match Py.getitem payload "detailedMessage" with
  | inl e => inl e
  | inr detailedMessage =>
      match Py.getitem detailedMessage "markdown" with
      | inl e => inl e
      | inr markdown =>
          match Py.str_add newline markdown with
          | inl e => inl e
          | inr body_template => inr (preamble +:+ body_template)
          end
      end
  end.

(** *** Binding the arguments from the request *)

(** [REQ(...)] as the signature of the view writes it: the keyword arguments
    it passes, [None] for one it leaves out. *)
Record REQ : Type := {
  argument_type : option string;
  default : option string;
  validator : option (Py.value -> bool)
}.

(** Line 17: [payload = REQ(argument_type='body')]. *)
Definition payload_REQ : REQ :=
  {| argument_type := Some "body"; default := None; validator := None |}.

(** Line 18: [topic = REQ(default='coverage')]. *)
Definition topic_REQ : REQ :=
  {| argument_type := None; default := Some "coverage"; validator := None |}.

(** Modelled from the spec: [has_request_variables] (zerver/lib/request.py) is
    not among the sources.  An argument declared with [argument_type='body']
    is the JSON-decoded body of the request, and a body that is not JSON is
    refused; a validator is applied to the decoded value when the declaration
    names one. *)
Definition bind_body (r : REQ) (request : HttpRequest) : Py.result Py.value :=
  match json_loads (request_body request) with
  | None => inl (Py.JsonableError "Malformed JSON")
  | Some v =>
      match validator r with
      | None => inr v
      | Some check =>
          if check v then inr v
          else inl (Py.JsonableError "Invalid argument")
      end
  end.

(** Modelled from the spec: any other argument is the request parameter of its
    name, taken as it is, or the declared default when the request has no such
    parameter. *)
Definition bind_param (name : string) (r : REQ) (request : HttpRequest)
    : Py.result string :=
  match request_params request !! name with
  | Some s => inr s
  | None =>
      match default r with
      | Some s => inr s
      | None => inl (Py.JsonableError "Missing argument")
      end
  end.

(** The decorator: the arguments are bound in the order of the signature and
    the view function is called with them. *)
Definition has_request_variables
    (view_func : HttpRequest -> UserProfile -> Py.value -> string ->
                 M HttpResponse)
    (request : HttpRequest) (user_profile : UserProfile) : M HttpResponse :=
  let* payload := lift (bind_body payload_REQ request) in
  let* topic := lift (bind_param "topic" topic_REQ request) in
  view_func request user_profile payload topic.

(** The view as the URL dispatcher calls it, for a caller that
    [api_key_only_webhook_view] has authenticated as [user_profile]. *)
Definition webhook_view (request : HttpRequest) (user_profile : UserProfile)
    : M HttpResponse :=
  has_request_variables api_azuredevops_webhook request user_profile.

(** *** Reading the log *)

(** The calls the collaborator accepted, that is, the messages delivered. *)
Definition delivered (log : list (Delivery * option Py.exn)) : list Delivery :=
  omap (fun c => match snd c with None => Some (fst c) | Some _ => None end) log.

(** The message texts a computation hands to the collaborator when it is run
    in [st]: the bodies of the calls it adds to the log. *)
Definition bodies_sent {A} (m : M A) (st : State) : list string :=
  (fun c => d_body (fst c)) <$> drop (length (calls st)) (calls (snd (m st))).

(** Delivery is all or nothing: a run that returns made exactly one call, which
    was accepted; a run that raises [e] left the state as it was, or made the
    one call that raised [e]; either way a failing run delivered nothing. *)
Definition all_or_nothing (st : State) (r : Py.result HttpResponse * State)
    : Prop :=
  match fst r with
  | inr _ =>
      exists d, calls (snd r) = calls st ++ [(d, None)] /\
                delivered (calls (snd r)) = delivered (calls st) ++ [d]
  | inl e =>
      delivered (calls (snd r)) = delivered (calls st) /\
      (snd r = st \/
       exists d w, snd r = {| world := w; calls := calls st ++ [(d, Some e)] |})
  end.

(** Two invocations of the view one after the other, the second in the state
    the first one left. *)
Definition twice (request : HttpRequest) (user_profile : UserProfile)
    (payload : Py.value) (topic : string) (st : State) : State :=
  let st1 := snd (api_azuredevops_webhook request user_profile payload topic st) in
  snd (api_azuredevops_webhook request user_profile payload topic st1).

(** *** A sequence of requests *)

(** The arguments of one invocation of the view function. *)
Record Invocation : Type := {
  i_request : HttpRequest;
  i_user : UserProfile;
  i_payload : Py.value;
  i_topic : string
}.

(** The call an invocation hands to the collaborator when lines 22 to 26 get
    through, and [None] when they raise. *)
Definition call_of (i : Invocation) : option Delivery :=
  match message_body (i_payload i) with
  | inr body =>
      Some {| d_request := i_request i; d_user := i_user i;
              d_topic := i_topic i; d_body := body |}
  | inl _ => None
  end.

(** The view function run on the invocations in turn, each in the state its
    predecessor left, whether that one returned or raised. *)
Fixpoint serve (l : list Invocation) (st : State) : State :=
  match l with
  | [] => st
  | i :: l' =>
      serve l'
        (snd (api_azuredevops_webhook
                (i_request i) (i_user i) (i_payload i) (i_topic i) st))
  end.

End Handler.

(** ** The declared type of the payload *)

(** The type expressions of line 17. *)
Inductive annotation : Type :=
| Any
| TStr
| TDict (k v : annotation)
| TIterable (a : annotation).

(** Line 17: [Dict[str, Iterable[Dict[str, Any]]]]. *)
Definition payload_annotation : annotation :=
  TDict TStr (TIterable (TDict TStr Any)).

(** The characters of a string, each as a string: what iterating it yields. *)
Fixpoint chars (s : string) : list Py.value :=
  match s with
  | EmptyString => []
  | String c s' => Py.Str (String c EmptyString) :: chars s'
  end.

(** Whether a value has the annotated type.  Iterating a list yields its
    elements, a dict its keys and a string its characters. *)
Fixpoint conforms (t : annotation) (v : Py.value) : bool :=
  match t with
  | Any => true
  | TStr => Py.is_str v
  | TDict k a =>
      match v with
      | Py.Dict d =>
          forallb (fun kv => conforms k (Py.Str (fst kv)) && conforms a (snd kv))
                  (map_to_list d)
      | _ => false
      end
  | TIterable a =>
      match v with
      | Py.List l => forallb (conforms a) l
      | Py.Dict d => forallb (fun kv => conforms a (Py.Str (fst kv))) (map_to_list d)
      | Py.Str s => forallb (conforms a) (chars s)
      | _ => false
      end
  end.

(** ** A platform to run the view on *)

(** A message as the sample platform stores it: sender, topic and text. *)
Record Message : Type := {
  sender : string;
  subject : string;
  text : string
}.

(** The payload of the specification's example and its text as a body. *)
Definition build42 : Py.value :=
  Py.Dict {[ "detailedMessage" :=
             Py.Dict {[ "markdown" := Py.Str "Build #42 passed" ]} ]}.

Definition build42_text : string := "build42".

(** A payload whose [markdown] is the number 42, and one whose
    [detailedMessage] is an empty mapping. *)
Definition build_number : Py.value :=
  Py.Dict {[ "detailedMessage" := Py.Dict {[ "markdown" := Py.Int 42 ]} ]}.

Definition no_markdown : Py.value :=
  Py.Dict {[ "detailedMessage" := Py.Dict ∅ ]}.

(** The example payload with a field the handler does not read. *)
Definition build42_with_id : Py.value :=
  Py.Dict (<[ "id" := Py.Int 7 ]>
           {[ "detailedMessage" :=
              Py.Dict {[ "markdown" := Py.Str "Build #42 passed" ]} ]}).

Definition build42_body : string :=
  "A new build from Azure DevOps! :smile:" +:+ newline +:+ "Build #42 passed".

(** Users are named by their address and the world is the list of the messages
    stored.  The decoder knows the bodies of the examples below by name, and
    delivery refuses an empty topic. *)
Definition sample_loads (s : string) : option Py.value :=
  if String.eqb s build42_text then Some build42
  else if String.eqb s "empty" then Some (Py.Dict ∅)
  else if String.eqb s "text" then Some (Py.Str "detailedMessage")
  else None.

Definition sample_send (request : HttpRequest) (user : string)
    (topic body : string) (w : list Message) : option Py.exn * list Message :=
  if String.eqb topic EmptyString
  then (Some (Py.JsonableError "Topic can't be empty"), w)
  else (None, w ++ [{| sender := user; subject := topic; text := body |}]).

Definition sample_platform : Collaborators := {|
  UserProfile := string;
  World := list Message;
  json_loads := sample_loads;
  send_message := sample_send
|}.

Definition sample_request (body : string) (params : gmap string string)
    : HttpRequest :=
  {| request_body := body; request_params := params |}.

Definition start : State (C := sample_platform) :=
  @Build_State sample_platform [] [].

Definition bot : string := "azure-bot@example.com".

(** A body that is a JSON array, and a payload whose [detailedMessage] is the
    text itself instead of a mapping. *)
Definition payload_array : Py.value := Py.List [build42].

Definition message_is_text : Py.value :=
  Py.Dict {[ "detailedMessage" := Py.Str "Build #42 passed" ]}.

(** The example payload with a second field beside [markdown]. *)
Definition build42_with_html : Py.value :=
  Py.Dict (<[ "detailedMessage" :=
              Py.Dict (<[ "html" := Py.Str "<b>Build #42 passed</b>" ]>
                       {[ "markdown" := Py.Str "Build #42 passed" ]}) ]>
           {[ "detailedMessage" :=
              Py.Dict {[ "markdown" := Py.Str "Build #42 passed" ]} ]}).

(** Three requests in a row: the example, an empty mapping and the example
    again under another topic. *)
Definition three_requests : list (Invocation (C := sample_platform)) :=
  [ @Build_Invocation sample_platform
      {| request_body := build42_text; request_params := ∅ |}
      bot build42 "coverage";
    @Build_Invocation sample_platform
      {| request_body := "empty"; request_params := ∅ |}
      bot (Py.Dict ∅) "coverage";
    @Build_Invocation sample_platform
      {| request_body := build42_text;
         request_params := {[ "topic" := "ci-results" ]} |}
      bot build42 "ci-results" ].

Definition sample_call (request : HttpRequest) (user topic body : string)
    : Delivery (C := sample_platform) :=
  @Build_Delivery sample_platform request user topic body.

(** ** Properties of the view *)

Section Properties.

Context `{C : Collaborators}.

Implicit Types (request : HttpRequest) (user_profile : UserProfile).
Implicit Types (payload : Py.value) (topic body : string) (st : State).

(** *** How a run of the view function unfolds *)

Lemma lift_run {A} (r : Py.result A) st :
  lift r st = (r, st).
Proof. by destruct r. Qed.

Lemma check_send_webhook_message_run request user_profile topic body st :
  check_send_webhook_message request user_profile topic body st =
  let r := send_message request user_profile topic body (world st) in
  let d := {| d_request := request; d_user := user_profile;
              d_topic := topic; d_body := body |} in
  (match fst r with None => inr tt | Some e => inl e end,
   {| world := snd r; calls := calls st ++ [(d, fst r)] |}).
Proof.
  unfold check_send_webhook_message.
  destruct (send_message request user_profile topic body (world st)) as [[e|] w];
    reflexivity.
Qed.

(** The view function composes the text first, raising what the composition
    raises without touching the state, and then makes its one call. *)
Lemma api_azuredevops_webhook_run request user_profile payload topic st :
  api_azuredevops_webhook request user_profile payload topic st =
  match message_body payload with
  | inl e => (inl e, st)
  | inr body =>
      let r := send_message request user_profile topic body (world st) in
      let d := {| d_request := request; d_user := user_profile;
                  d_topic := topic; d_body := body |} in
      (match fst r with None => inr json_success | Some e => inl e end,
       {| world := snd r; calls := calls st ++ [(d, fst r)] |})
  end.
Proof.
  unfold api_azuredevops_webhook, message_body, bind.
  rewrite lift_run.
  destruct (Py.getitem payload "detailedMessage") as [e|detailedMessage]; [done|].
  rewrite lift_run.
  destruct (Py.getitem detailedMessage "markdown") as [e|markdown]; [done|].
  rewrite lift_run.
  destruct (Py.str_add newline markdown) as [e|body_template]; [done|].
  rewrite check_send_webhook_message_run. simpl.
  by destruct (fst (send_message _ _ _ _ _)).
Qed.

Lemma message_body_text (d dm : gmap string Py.value) (m : string) :
  d !! "detailedMessage" = Some (Py.Dict dm) ->
  dm !! "markdown" = Some (Py.Str m) ->
  message_body (Py.Dict d) = inr (preamble +:+ newline +:+ m).
Proof.
  intros Hd Hdm. unfold message_body, Py.getitem. by rewrite Hd, Hdm.
Qed.

Lemma string_length_app (s t : string) :
  String.length (s +:+ t) = (String.length s + String.length t)%nat.
Proof.
  induction s as [|c s IH]; simpl; [done|]. by rewrite IH.
Qed.

(** C1: for every payload whose [detailedMessage] holds a [markdown] entry with
    the text [m], the body the handler composes and hands to the delivery
    collaborator is the fixed preamble, one newline and [m] itself: nothing is
    escaped, cut or otherwise changed, so the body is 39 characters longer
    than [m]. *)
Theorem C1_body_is_preamble_newline_markdown
    request user_profile topic st (d dm : gmap string Py.value) (m : string) :
  d !! "detailedMessage" = Some (Py.Dict dm) ->
  dm !! "markdown" = Some (Py.Str m) ->
  let body := "A new build from Azure DevOps! :smile:" +:+ newline +:+ m in
  message_body (Py.Dict d) = inr body /\
  calls (snd (api_azuredevops_webhook request user_profile (Py.Dict d) topic st))
  = calls st ++
    [({| d_request := request; d_user := user_profile;
         d_topic := topic; d_body := body |},
      fst (send_message request user_profile topic body (world st)))] /\
  String.length body = (39 + String.length m)%nat.
Proof.
  intros Hd Hdm body.
  pose proof (message_body_text d dm m Hd Hdm) as Hbody.
  split; [exact Hbody|]. split.
  - rewrite api_azuredevops_webhook_run, Hbody. reflexivity.
  - unfold body. rewrite !string_length_app. reflexivity.
Qed.

(** C2, as amended: when the payload has no [detailedMessage] key, or its
    [detailedMessage] is a mapping without a [markdown] key, the handler returns
    no response at all: the lookup raises [KeyError] carrying the missing key,
    which leaves the handler, and the state with its log of calls is as before,
    so the delivery collaborator was never invoked. *)
Theorem C2_missing_key_raises_KeyError
    request user_profile topic st (d : gmap string Py.value) (key : string) :
  (d !! "detailedMessage" = None /\ key = "detailedMessage") \/
  (exists dm, d !! "detailedMessage" = Some (Py.Dict dm) /\
              dm !! "markdown" = None /\ key = "markdown") ->
  api_azuredevops_webhook request user_profile (Py.Dict d) topic st
  = (inl (Py.KeyError key), st).
Proof.
  intros [[Hd ->]|(dm & Hd & Hdm & ->)];
    rewrite api_azuredevops_webhook_run; unfold message_body, Py.getitem.
  - by rewrite Hd.
  - by rewrite Hd, Hdm.
Qed.

(** *** Binding and the decorated view *)

Lemma bind_param_topic request :
  bind_param "topic" topic_REQ request
  = inr (from_option id "coverage" (request_params request !! "topic")).
Proof.
  unfold bind_param. by destruct (request_params request !! "topic").
Qed.

Lemma bind_body_payload request :
  bind_body payload_REQ request
  = match json_loads (request_body request) with
    | Some v => inr v
    | None => inl (Py.JsonableError "Malformed JSON")
    end.
Proof. unfold bind_body. by destruct (json_loads _). Qed.

Lemma webhook_view_run request user_profile st :
  webhook_view request user_profile st =
  match json_loads (request_body request) with
  | None => (inl (Py.JsonableError "Malformed JSON"), st)
  | Some payload =>
      api_azuredevops_webhook request user_profile payload
        (from_option id "coverage" (request_params request !! "topic")) st
  end.
Proof.
  unfold webhook_view, has_request_variables, bind.
  rewrite lift_run, bind_body_payload.
  destruct (json_loads (request_body request)) as [payload|]; [|done].
  by rewrite lift_run, bind_param_topic.
Qed.

(** C3: a request without a [topic] parameter whose body decodes to a payload
    the handler can read makes exactly one call to the delivery collaborator,
    with the topic ["coverage"] and the composed body, and the success
    envelope is returned once the collaborator has accepted the message.  For
    the payload [{"detailedMessage": {"markdown": "Build #42 passed"}}] the
    body is the preamble, a newline and [Build #42 passed]. *)
Theorem C3_default_topic_is_coverage
    request user_profile st payload body :
  request_params request !! "topic" = None ->
  json_loads (request_body request) = Some payload ->
  message_body payload = inr body ->
  let r := webhook_view request user_profile st in
  let sent :=
    fst (send_message request user_profile "coverage" body (world st)) in
  calls (snd r)
  = calls st ++
    [({| d_request := request; d_user := user_profile;
         d_topic := "coverage"; d_body := body |}, sent)] /\
  (sent = None -> fst r = inr json_success) /\
  message_body build42
  = inr ("A new build from Azure DevOps! :smile:" +:+ newline
         +:+ "Build #42 passed").
Proof.
  intros Htopic Hload Hbody r sent. subst r sent.
  rewrite webhook_view_run, Hload, Htopic, api_azuredevops_webhook_run, Hbody.
  simpl. split; [done|]. split; [by intros ->|].
  apply (message_body_text _ {[ "markdown" := Py.Str "Build #42 passed" ]});
    apply lookup_singleton_eq.
Qed.

(** C4: when the request supplies a [topic] parameter, the one call to the
    delivery collaborator carries exactly that text as its topic. *)
Theorem C4_supplied_topic_is_passed_on
    request user_profile st payload body topic :
  request_params request !! "topic" = Some topic ->
  json_loads (request_body request) = Some payload ->
  message_body payload = inr body ->
  calls (snd (webhook_view request user_profile st))
  = calls st ++
    [({| d_request := request; d_user := user_profile;
         d_topic := topic; d_body := body |},
      fst (send_message request user_profile topic body (world st)))].
Proof.
  intros Htopic Hload Hbody.
  by rewrite webhook_view_run, Hload, Htopic, api_azuredevops_webhook_run, Hbody.
Qed.

(** *** Counting deliveries *)

Lemma delivered_accepted (log : list (Delivery * option Py.exn)) (d : Delivery) :
  delivered (log ++ [(d, None)]) = delivered log ++ [d].
Proof. unfold delivered. by rewrite omap_app. Qed.

Lemma delivered_refused (log : list (Delivery * option Py.exn)) d e :
  delivered (log ++ [(d, Some e)]) = delivered log.
Proof. unfold delivered. rewrite omap_app. simpl. by rewrite app_nil_r. Qed.

Lemma api_azuredevops_webhook_all_or_nothing
    request user_profile payload topic st :
  all_or_nothing st (api_azuredevops_webhook request user_profile payload topic st).
Proof.
  rewrite api_azuredevops_webhook_run. unfold all_or_nothing.
  destruct (message_body payload) as [e|body]; simpl; [by auto|].
  destruct (send_message request user_profile topic body (world st))
    as [[e|] w]; simpl.
  - split; [apply delivered_refused|]. right. by eexists _, _.
  - eexists. split; [done|]. apply delivered_accepted.
Qed.

(** C5: a run of the handler that returns has made exactly one call to the
    delivery collaborator, which accepted it; a run that fails has delivered
    nothing: either the state is untouched or the single call made is the one
    that raised.  The same holds for the view with its arguments bound from
    the request.  No run makes a second call. *)
Theorem C5_delivery_is_all_or_nothing request user_profile payload topic st :
  all_or_nothing st
    (api_azuredevops_webhook request user_profile payload topic st) /\
  all_or_nothing st (webhook_view request user_profile st).
Proof.
  split; [apply api_azuredevops_webhook_all_or_nothing|].
  rewrite webhook_view_run.
  destruct (json_loads (request_body request)) as [decoded|].
  - apply api_azuredevops_webhook_all_or_nothing.
  - unfold all_or_nothing. simpl. by auto.
Qed.

(** *** The declared type and the binding of the payload *)

Lemma message_body_inv payload body :
  message_body payload = inr body ->
  exists (d dm : gmap string Py.value) (m : string),
    payload = Py.Dict d /\ d !! "detailedMessage" = Some (Py.Dict dm) /\
    dm !! "markdown" = Some (Py.Str m) /\ body = preamble +:+ newline +:+ m.
Proof.
  unfold message_body. destruct payload as [| | | | | |d]; try done. simpl.
  destruct (d !! "detailedMessage") as [x|] eqn:Hd; [|done].
  destruct x as [| | | | | |dm]; try done. simpl.
  destruct (dm !! "markdown") as [v|] eqn:Hdm; [|done].
  destruct v as [| | | |m| |]; try done. simpl.
  intros [= <-]. by exists d, dm, m.
Qed.

(** No payload of the declared type has the field the handler reads: a value
    under [detailedMessage] that iterates over mappings is a list, an empty
    mapping or an empty string, and none of them has a [markdown] key. *)
Lemma declared_type_has_no_markdown payload body :
  message_body payload = inr body ->
  conforms payload_annotation payload = false.
Proof.
  intros (d & dm & m & -> & Hd & Hdm & _)%message_body_inv.
  apply not_true_is_false. simpl. intros Hall.
  rewrite forallb_forall in Hall.
  specialize (Hall ("detailedMessage", Py.Dict dm)).
  rewrite <- list_elem_of_In, elem_of_map_to_list in Hall.
  specialize (Hall Hd). simpl in Hall.
  rewrite forallb_forall in Hall.
  specialize (Hall ("markdown", Py.Str m)).
  rewrite <- list_elem_of_In, elem_of_map_to_list in Hall.
  by specialize (Hall Hdm).
Qed.

(** C6, as amended: the request body is decoded and handed to the handler as
    it is.  The declaration of line 17 names no validator and its type, a
    mapping of string to an iterable of mappings, is an annotation that nothing
    checks: whatever the body decodes to is bound as the payload, and every
    payload the handler can compose a message from lies outside that type.
    Whether [detailedMessage] and [markdown] are present is found out only when
    the handler reads them: the error the lookup raises is the outcome of the
    view, with the state untouched. *)
Theorem C6_presence_is_checked_at_use_only request user_profile st payload :
  json_loads (request_body request) = Some payload ->
  validator payload_REQ = None /\
  bind_body payload_REQ request = inr payload /\
  (forall body, message_body payload = inr body ->
                conforms payload_annotation payload = false) /\
  (forall e, message_body payload = inl e ->
             webhook_view request user_profile st = (inl e, st)).
Proof.
  intros Hload. split; [done|]. split.
  { by rewrite bind_body_payload, Hload. }
  split; [apply declared_type_has_no_markdown|].
  intros e He.
  by rewrite webhook_view_run, Hload, api_azuredevops_webhook_run, He.
Qed.

(** C7, as amended: a run of the handler that returns answers [json_success()],
    the HTTP 200 envelope whose [result] is [success] and whose [msg] is empty,
    with no other data, after the one call the collaborator accepted.  On
    failure the handler returns no response: the exception raised by the
    lookup or the concatenation, or the one the delivery collaborator raised,
    leaves the handler as it is. *)
Theorem C7_success_envelope_or_exception
    request user_profile payload topic st :
  let r := api_azuredevops_webhook request user_profile payload topic st in
  match fst r with
  | inr response =>
      response = json_success /\
      status_code response = 200 /\
      content response
      = Py.Dict (<["result" := Py.Str "success"]>
                 (<["msg" := Py.Str EmptyString]> ∅)) /\
      exists d, calls (snd r) = calls st ++ [(d, None)]
  | inl e =>
      message_body payload = inl e \/
      exists body,
        message_body payload = inr body /\
        fst (send_message request user_profile topic body (world st)) = Some e
  end.
Proof.
  intros r. subst r. rewrite api_azuredevops_webhook_run.
  destruct (message_body payload) as [e|body]; simpl; [by left|].
  destruct (send_message request user_profile topic body (world st))
    as [[e|] w] eqn:Hsend; simpl.
  - right. exists body. by rewrite Hsend.
  - repeat split; by eexists.
Qed.

(** *** Repeated and related invocations *)

(** C8: two invocations with the same payload the handler can read make two
    calls to the delivery collaborator, one per invocation and both with the
    same topic and body: nothing recognises the repetition.  When the
    collaborator accepts both, two messages are delivered. *)
Theorem C8_two_invocations_two_calls
    request user_profile payload topic st body :
  message_body payload = inr body ->
  let d := {| d_request := request; d_user := user_profile;
              d_topic := topic; d_body := body |} in
  let first := send_message request user_profile topic body (world st) in
  let second := send_message request user_profile topic body (snd first) in
  calls (twice request user_profile payload topic st)
  = calls st ++ [(d, fst first); (d, fst second)] /\
  (fst first = None -> fst second = None ->
   delivered (calls (twice request user_profile payload topic st))
   = delivered (calls st) ++ [d; d]).
Proof.
  intros Hbody d first second. unfold twice.
  rewrite !api_azuredevops_webhook_run, Hbody. simpl.
  fold first. fold second. fold d.
  rewrite <- app_assoc. simpl. split; [done|].
  intros -> ->. unfold delivered. by rewrite omap_app.
Qed.

Lemma bodies_sent_api_azuredevops_webhook
    request user_profile payload topic st :
  bodies_sent (api_azuredevops_webhook request user_profile payload topic) st
  = match message_body payload with
    | inl _ => []
    | inr body => [body]
    end.
Proof.
  unfold bodies_sent. rewrite api_azuredevops_webhook_run.
  destruct (message_body payload) as [e|body]; simpl.
  - by rewrite drop_all.
  - by rewrite drop_app_length.
Qed.

(** C9: the body handed to the delivery collaborator is a function of the
    value at [payload['detailedMessage']['markdown']] alone: two invocations
    whose payloads hold the same value there send the same text, whatever the
    requests, callers, topics, states and other payload fields are. *)
Theorem C9_body_depends_on_markdown_only
    request1 request2 user1 user2 payload1 payload2 topic1 topic2 st1 st2
    (x1 x2 v : Py.value) :
  Py.getitem payload1 "detailedMessage" = inr x1 ->
  Py.getitem x1 "markdown" = inr v ->
  Py.getitem payload2 "detailedMessage" = inr x2 ->
  Py.getitem x2 "markdown" = inr v ->
  message_body payload1 = message_body payload2 /\
  bodies_sent (api_azuredevops_webhook request1 user1 payload1 topic1) st1
  = bodies_sent (api_azuredevops_webhook request2 user2 payload2 topic2) st2.
Proof.
  intros H1 Hv1 H2 Hv2.
  assert (message_body payload1 = message_body payload2) as Heq.
  { unfold message_body. by rewrite H1, Hv1, H2, Hv2. }
  split; [exact Heq|].
  by rewrite !bodies_sent_api_azuredevops_webhook, Heq.
Qed.

(** C10: when [detailedMessage] and its [markdown] are present and the value
    of [markdown] is not a string, adding it to the newline raises [TypeError]:
    the handler fails before the delivery call, the state is untouched and no
    text is sent.  So a text is sent only when the value is a string. *)
Theorem C10_non_text_markdown_raises_TypeError
    request user_profile topic st (d dm : gmap string Py.value) (v : Py.value) :
  d !! "detailedMessage" = Some (Py.Dict dm) ->
  dm !! "markdown" = Some v ->
  (Py.is_str v = false ->
   api_azuredevops_webhook request user_profile (Py.Dict d) topic st
   = (inl Py.TypeError, st)) /\
  (bodies_sent (api_azuredevops_webhook request user_profile (Py.Dict d) topic) st
   <> [] -> Py.is_str v = true).
Proof.
  intros Hd Hdm.
  assert (Py.is_str v = false -> message_body (Py.Dict d) = inl Py.TypeError)
    as Hraise.
  { intros Hv. unfold message_body, Py.getitem. rewrite Hd, Hdm.
    by destruct v. }
  split.
  - intros Hv. by rewrite api_azuredevops_webhook_run, (Hraise Hv).
  - rewrite bodies_sent_api_azuredevops_webhook.
    destruct (Py.is_str v); [done|]. by rewrite Hraise.
Qed.

End Properties.

(** ** Further properties of the view function *)

Section Further.

Context `{C : Collaborators}.

Implicit Types (request : HttpRequest) (user_profile : UserProfile).
Implicit Types (payload : Py.value) (topic body : string) (st : State).

(** What lines 22 to 26 can raise. *)
Lemma message_body_raises payload e :
  message_body payload = inl e ->
  e = Py.KeyError "detailedMessage" \/ e = Py.KeyError "markdown" \/
  e = Py.TypeError.
Proof.
  unfold message_body, Py.getitem.
  destruct payload as [| | | | | |d]; try (intros [= <-]; by auto).
  destruct (d !! "detailedMessage") as [x|]; [|intros [= <-]; by auto].
  destruct x as [| | | | | |dm]; try (intros [= <-]; by auto).
  destruct (dm !! "markdown") as [v|]; [|intros [= <-]; by auto].
  destruct v; simpl; intros [= <-]; by auto.
Qed.

Lemma string_app_inj (s t1 t2 : string) :
  s +:+ t1 = s +:+ t2 -> t1 = t2.
Proof.
  induction s as [|c s IH]; simpl; [done|]. intros [= H]. by apply IH.
Qed.


(** X2: a payload that is not a mapping (an array, a string, a number, a
    boolean, null) makes the first lookup of line 25 raise [TypeError]; the
    state is as before and no call is made. *)
Theorem payload_that_is_no_mapping_raises_TypeError
    request user_profile payload topic st :
  (forall d : gmap string Py.value, payload <> Py.Dict d) ->
  api_azuredevops_webhook request user_profile payload topic st
  = (inl Py.TypeError, st).
Proof.
  intros Hshape. rewrite api_azuredevops_webhook_run.
  destruct payload as [| | | | | |d]; try reflexivity.
  by destruct (Hshape d).
Qed.

(** X3: when [detailedMessage] is present but is not a mapping, the second
    lookup of line 25 raises [TypeError], also when the value is itself the
    text of the message; the state is as before and no call is made. *)
Theorem detailedMessage_that_is_no_mapping_raises_TypeError
    request user_profile topic st (d : gmap string Py.value) (x : Py.value) :
  d !! "detailedMessage" = Some x ->
  (forall dm : gmap string Py.value, x <> Py.Dict dm) ->
  api_azuredevops_webhook request user_profile (Py.Dict d) topic st
  = (inl Py.TypeError, st).
Proof.
  intros Hd Hshape. rewrite api_azuredevops_webhook_run.
  unfold message_body. simpl. rewrite Hd.
  destruct x as [| | | | | |dm]; try reflexivity.
  by destruct (Hshape dm).
Qed.

(** X4: the fields of the payload other than [detailedMessage] are never
    read: adding, replacing or removing one changes neither the outcome nor
    the state the view function leaves. *)
Theorem other_payload_fields_are_ignored
    request user_profile topic st (d : gmap string Py.value)
    (k : string) (v : Py.value) :
  k <> "detailedMessage" ->
  api_azuredevops_webhook request user_profile (Py.Dict (<[k := v]> d)) topic st
  = api_azuredevops_webhook request user_profile (Py.Dict d) topic st /\
  api_azuredevops_webhook request user_profile (Py.Dict (delete k d)) topic st
  = api_azuredevops_webhook request user_profile (Py.Dict d) topic st.
Proof.
  intros Hk. rewrite !api_azuredevops_webhook_run.
  unfold message_body. simpl.
  by rewrite lookup_insert_ne, lookup_delete_ne.
Qed.

(** X5: inside [detailedMessage] only [markdown] is read: giving the mapping
    another field, or replacing one, changes neither the outcome nor the
    state the view function leaves. *)
Theorem other_detailedMessage_fields_are_ignored
    request user_profile topic st (d dm : gmap string Py.value)
    (k : string) (v : Py.value) :
  d !! "detailedMessage" = Some (Py.Dict dm) ->
  k <> "markdown" ->
  api_azuredevops_webhook request user_profile
    (Py.Dict (<["detailedMessage" := Py.Dict (<[k := v]> dm)]> d)) topic st
  = api_azuredevops_webhook request user_profile (Py.Dict d) topic st.
Proof.
  intros Hd Hk. rewrite !api_azuredevops_webhook_run.
  unfold message_body. simpl.
  by rewrite lookup_insert_eq, Hd; simpl; rewrite lookup_insert_ne.
Qed.

(** X6: the body determines the markdown: two payloads for which lines 22 to
    26 compose the same text hold the same string at
    [['detailedMessage']['markdown']]. *)
Theorem equal_bodies_have_equal_markdown payload1 payload2 body :
  message_body payload1 = inr body ->
  message_body payload2 = inr body ->
  exists (x1 x2 : Py.value) (m : string),
    Py.getitem payload1 "detailedMessage" = inr x1 /\
    Py.getitem x1 "markdown" = inr (Py.Str m) /\
    Py.getitem payload2 "detailedMessage" = inr x2 /\
    Py.getitem x2 "markdown" = inr (Py.Str m).
Proof.
  intros (d1 & dm1 & m1 & -> & Hd1 & Hdm1 & ->)%message_body_inv
         (d2 & dm2 & m2 & -> & Hd2 & Hdm2 & Heq)%message_body_inv.
  apply string_app_inj, string_app_inj in Heq. subst m2.
  exists (Py.Dict dm1), (Py.Dict dm2), m1. simpl.
  by rewrite Hd1, Hd2, Hdm1, Hdm2.
Qed.

(** X7: over any sequence of invocations the log only grows at its end, by
    one call for each invocation whose payload can be read, in the order of
    the invocations and with that invocation's request, caller, topic and
    body; an invocation that raises before the call leaves no entry. *)
Theorem serve_logs_one_call_per_readable_payload
    (l : list Invocation) st :
  exists new : list (Delivery * option Py.exn),
    calls (serve l st) = calls st ++ new /\
    fst <$> new = omap call_of l.
Proof.
  revert st. induction l as [|i l IH]; intros st; simpl.
  - exists []. by rewrite app_nil_r.
  - destruct (IH (snd (api_azuredevops_webhook
                         (i_request i) (i_user i) (i_payload i) (i_topic i) st)))
      as (new & Hcalls & Hnew).
    rewrite Hcalls, api_azuredevops_webhook_run.
    change (omap call_of (i :: l))
      with (match call_of i with
            | Some d => d :: omap call_of l
            | None => omap call_of l
            end).
    unfold call_of at 1.
    destruct (message_body (i_payload i)) as [e|body]; simpl.
    + by exists new.
    + eexists (_ :: new). split; [by rewrite <- app_assoc|].
      by rewrite fmap_cons, Hnew.
Qed.

(** X8: no payload that has the type declared on line 17, a mapping of
    string to an iterable of mappings, gets a message through: the view
    function raises [KeyError] or [TypeError] on it before the delivery call
    and leaves the state as it was. *)
Theorem payload_of_declared_type_is_never_delivered
    request user_profile payload topic st :
  conforms payload_annotation payload = true ->
  exists e,
    api_azuredevops_webhook request user_profile payload topic st
    = (inl e, st) /\
    (e = Py.KeyError "detailedMessage" \/ e = Py.KeyError "markdown" \/
     e = Py.TypeError).
Proof.
  intros Htyped. rewrite api_azuredevops_webhook_run.
  destruct (message_body payload) as [e|body] eqn:Hbody.
  - exists e. split; [done|]. by apply (message_body_raises payload).
  - apply declared_type_has_no_markdown in Hbody. congruence.
Qed.

(** X9: whenever the view function makes no call, it has raised, the state
    is exactly as before, and the exception is [KeyError('detailedMessage')],
    [KeyError('markdown')] or [TypeError], nothing else. *)
Theorem without_a_call_the_lookup_has_raised
    request user_profile payload topic st :
  calls (snd (api_azuredevops_webhook request user_profile payload topic st))
  = calls st ->
  exists e,
    api_azuredevops_webhook request user_profile payload topic st
    = (inl e, st) /\
    (e = Py.KeyError "detailedMessage" \/ e = Py.KeyError "markdown" \/
     e = Py.TypeError).
Proof.
  rewrite api_azuredevops_webhook_run.
  destruct (message_body payload) as [e|body] eqn:Hbody; simpl.
  - intros _. exists e. split; [done|]. by apply (message_body_raises payload).
  - intros Hlog. apply (f_equal length) in Hlog.
    rewrite length_app in Hlog. simpl in Hlog. lia.
Qed.

End Further.

(** ** The view on the sample platform *)

Example getitem_of_list :
  Py.getitem (Py.List [Py.Dict ∅]) "markdown" = inl Py.TypeError.
Proof. reflexivity. Qed.

Example getitem_of_text :
  Py.getitem (Py.Str "detailedMessage") "detailedMessage" = inl Py.TypeError.
Proof. reflexivity. Qed.

Example str_add_of_none : Py.str_add newline Py.NoneV = inl Py.TypeError.
Proof. reflexivity. Qed.

Example empty_mapping_has_declared_type :
  conforms payload_annotation (Py.Dict ∅) = true.
Proof. reflexivity. Qed.

Example list_of_mappings_has_declared_type :
  conforms payload_annotation
    (Py.Dict {[ "detailedMessage" := Py.List [Py.Dict ∅] ]}) = true.
Proof. reflexivity. Qed.

Example body_that_is_not_json :
  webhook_view (C := sample_platform) (sample_request "{" ∅) bot start
  = (inl (Py.JsonableError "Malformed JSON"), start).
Proof. reflexivity. Qed.

Example body_that_is_a_text :
  webhook_view (C := sample_platform) (sample_request "text" ∅) bot start
  = (inl Py.TypeError, start).
Proof. reflexivity. Qed.

(** A delivery the platform refuses: the call is made and logged, nothing is
    stored, and the exception of the collaborator is the outcome. *)
Example refused_delivery :
  let request := sample_request build42_text {[ "topic" := EmptyString ]} in
  webhook_view (C := sample_platform) request bot start
  = (inl (Py.JsonableError "Topic can't be empty"),
     @Build_State sample_platform []
       [(sample_call request bot EmptyString build42_body,
         Some (Py.JsonableError "Topic can't be empty"))]).
Proof. reflexivity. Qed.

(** ** The properties on the sample platform *)

Lemma C1_witness :
  message_body build42 = inr build42_body /\
  calls (snd (api_azuredevops_webhook (C := sample_platform)
                (sample_request build42_text ∅) bot build42 "ci" start))
  = [(sample_call (sample_request build42_text ∅) bot "ci" build42_body, None)] /\
  String.length build42_body = 55%nat.
Proof.
  apply (@C1_body_is_preamble_newline_markdown sample_platform
           (sample_request build42_text ∅) bot "ci" start
           {[ "detailedMessage" :=
              Py.Dict {[ "markdown" := Py.Str "Build #42 passed" ]} ]}
           {[ "markdown" := Py.Str "Build #42 passed" ]}
           "Build #42 passed"); reflexivity.
Defined.

(** C2 as the specification states it fails on the empty mapping: the handler
    raises and so returns no response, of the 400 class or any other. *)
Lemma C2_counterexample_no_error_response :
  (∅ : gmap string Py.value) !! "detailedMessage" = None /\
  fst (api_azuredevops_webhook (C := sample_platform)
         (sample_request "empty" ∅) bot (Py.Dict ∅) "coverage" start)
  = inl (Py.KeyError "detailedMessage") /\
  ~ exists response,
      fst (api_azuredevops_webhook (C := sample_platform)
             (sample_request "empty" ∅) bot (Py.Dict ∅) "coverage" start)
      = inr response /\
      400 <= status_code response < 500.
Proof.
  split; [reflexivity|]. split; [reflexivity|].
  intros (response & Hreturned & _). discriminate Hreturned.
Qed.

Lemma C2_witness :
  api_azuredevops_webhook (C := sample_platform)
    (sample_request "empty" ∅) bot (Py.Dict ∅) "coverage" start
  = (inl (Py.KeyError "detailedMessage"), start) /\
  api_azuredevops_webhook (C := sample_platform)
    (sample_request "empty" ∅) bot no_markdown "coverage" start
  = (inl (Py.KeyError "markdown"), start).
Proof.
  split.
  - apply (@C2_missing_key_raises_KeyError sample_platform).
    left. split; reflexivity.
  - apply (@C2_missing_key_raises_KeyError sample_platform
             (sample_request "empty" ∅) bot "coverage" start
             {[ "detailedMessage" := Py.Dict ∅ ]} "markdown").
    right. exists ∅. repeat split; reflexivity.
Defined.

Lemma C3_witness :
  request_params (sample_request build42_text ∅) !! "topic" = None /\
  calls (snd (webhook_view (C := sample_platform)
                (sample_request build42_text ∅) bot start))
  = [(sample_call (sample_request build42_text ∅) bot "coverage" build42_body, None)] /\
  fst (webhook_view (C := sample_platform)
         (sample_request build42_text ∅) bot start)
  = inr json_success.
Proof.
  destruct (@C3_default_topic_is_coverage sample_platform
              (sample_request build42_text ∅) bot start build42 build42_body)
    as (Hcalls & Hreturned & _); [reflexivity..|].
  split; [reflexivity|]. split; [exact Hcalls|].
  apply Hreturned. reflexivity.
Defined.

Lemma C4_witness :
  request_params (sample_request build42_text {[ "topic" := "ci-results" ]})
    !! "topic" = Some "ci-results" /\
  calls (snd (webhook_view (C := sample_platform)
                (sample_request build42_text {[ "topic" := "ci-results" ]})
                bot start))
  = [(sample_call (sample_request build42_text {[ "topic" := "ci-results" ]})
        bot "ci-results" build42_body, None)].
Proof.
  split; [reflexivity|].
  apply (@C4_supplied_topic_is_passed_on sample_platform
           (sample_request build42_text {[ "topic" := "ci-results" ]})
           bot start build42 build42_body "ci-results"); reflexivity.
Defined.

(** C6 as the specification states it fails on its own example: the body that
    decodes to the build 42 payload is bound and answered with success, yet
    that payload is not a mapping of string to an iterable of mappings, since
    iterating its [detailedMessage] yields the string [markdown]. *)
Lemma C6_counterexample_declared_type_not_enforced :
  conforms payload_annotation build42 = false /\
  bind_body (C := sample_platform) payload_REQ (sample_request build42_text ∅)
  = inr build42 /\
  fst (webhook_view (C := sample_platform)
         (sample_request build42_text ∅) bot start)
  = inr json_success.
Proof. repeat split; reflexivity. Qed.

Lemma C6_witness :
  json_loads (Collaborators := sample_platform)
    (request_body (sample_request "empty" ∅)) = Some (Py.Dict ∅) /\
  bind_body (C := sample_platform) payload_REQ (sample_request "empty" ∅)
  = inr (Py.Dict ∅) /\
  webhook_view (C := sample_platform) (sample_request "empty" ∅) bot start
  = (inl (Py.KeyError "detailedMessage"), start).
Proof.
  destruct (@C6_presence_is_checked_at_use_only sample_platform
              (sample_request "empty" ∅) bot start (Py.Dict ∅))
    as (_ & Hbound & _ & Hraise); [reflexivity|].
  split; [reflexivity|]. split; [exact Hbound|].
  apply Hraise. reflexivity.
Defined.

(** C7 as the specification states it fails when [markdown] is a number: the
    failing handler raises [TypeError] and returns no envelope. *)
Lemma C7_counterexample_failure_is_raised :
  fst (api_azuredevops_webhook (C := sample_platform)
         (sample_request "number" ∅) bot build_number "coverage" start)
  = inl Py.TypeError /\
  ~ exists response,
      fst (api_azuredevops_webhook (C := sample_platform)
             (sample_request "number" ∅) bot build_number "coverage" start)
      = inr response /\
      400 <= status_code response < 500.
Proof.
  split; [reflexivity|].
  intros (response & Hreturned & _). discriminate Hreturned.
Qed.

Lemma C8_witness :
  let d := sample_call (sample_request build42_text ∅) bot "coverage"
             build42_body in
  message_body build42 = inr build42_body /\
  calls (twice (C := sample_platform)
           (sample_request build42_text ∅) bot build42 "coverage" start)
  = [(d, None); (d, None)] /\
  delivered (calls (twice (C := sample_platform)
                      (sample_request build42_text ∅) bot build42 "coverage"
                      start))
  = [d; d].
Proof.
  destruct (@C8_two_invocations_two_calls sample_platform
              (sample_request build42_text ∅) bot build42 "coverage" start
              build42_body)
    as (Hcalls & Hdelivered); [reflexivity|].
  split; [reflexivity|]. split; [exact Hcalls|].
  apply Hdelivered; reflexivity.
Defined.

Lemma C9_witness :
  message_body build42 = message_body build42_with_id /\
  bodies_sent (api_azuredevops_webhook (C := sample_platform)
                 (sample_request build42_text ∅) bot build42 "coverage") start
  = bodies_sent (api_azuredevops_webhook (C := sample_platform)
                   (sample_request "other" {[ "topic" := "ci-results" ]})
                   "someone@example.com" build42_with_id "ci-results") start.
Proof.
  apply (@C9_body_depends_on_markdown_only sample_platform
           (sample_request build42_text ∅)
           (sample_request "other" {[ "topic" := "ci-results" ]})
           bot "someone@example.com" build42 build42_with_id
           "coverage" "ci-results" start start
           (Py.Dict {[ "markdown" := Py.Str "Build #42 passed" ]})
           (Py.Dict {[ "markdown" := Py.Str "Build #42 passed" ]})
           (Py.Str "Build #42 passed")); reflexivity.
Defined.

Lemma C10_witness :
  Py.is_str (Py.Int 42) = false /\
  api_azuredevops_webhook (C := sample_platform)
    (sample_request "number" ∅) bot build_number "coverage" start
  = (inl Py.TypeError, start).
Proof.
  split; [reflexivity|].
  apply (@C10_non_text_markdown_raises_TypeError sample_platform
           (sample_request "number" ∅) bot "coverage" start
           {[ "detailedMessage" := Py.Dict {[ "markdown" := Py.Int 42 ]} ]}
           {[ "markdown" := Py.Int 42 ]} (Py.Int 42)); reflexivity.
Defined.

(** ** The further properties on the sample platform *)


Lemma payload_that_is_no_mapping_witness :
  api_azuredevops_webhook (C := sample_platform)
    (sample_request "array" ∅) bot payload_array "coverage" start
  = (inl Py.TypeError, start).
Proof.
  apply (@payload_that_is_no_mapping_raises_TypeError sample_platform).
  intros d. discriminate.
Defined.

Lemma detailedMessage_that_is_no_mapping_witness :
  api_azuredevops_webhook (C := sample_platform)
    (sample_request "flat" ∅) bot message_is_text "coverage" start
  = (inl Py.TypeError, start).
Proof.
  apply (@detailedMessage_that_is_no_mapping_raises_TypeError sample_platform
           (sample_request "flat" ∅) bot "coverage" start
           {[ "detailedMessage" := Py.Str "Build #42 passed" ]}
           (Py.Str "Build #42 passed")).
  - reflexivity.
  - intros dm. discriminate.
Defined.

Lemma other_payload_fields_witness :
  api_azuredevops_webhook (C := sample_platform)
    (sample_request build42_text ∅) bot build42_with_id "coverage" start
  = api_azuredevops_webhook (C := sample_platform)
      (sample_request build42_text ∅) bot build42 "coverage" start.
Proof.
  apply (@other_payload_fields_are_ignored sample_platform
           (sample_request build42_text ∅) bot "coverage" start
           {[ "detailedMessage" :=
              Py.Dict {[ "markdown" := Py.Str "Build #42 passed" ]} ]}
           "id" (Py.Int 7)).
  discriminate.
Defined.

Lemma other_detailedMessage_fields_witness :
  api_azuredevops_webhook (C := sample_platform)
    (sample_request build42_text ∅) bot build42_with_html "coverage" start
  = api_azuredevops_webhook (C := sample_platform)
      (sample_request build42_text ∅) bot build42 "coverage" start.
Proof.
  apply (@other_detailedMessage_fields_are_ignored sample_platform
           (sample_request build42_text ∅) bot "coverage" start
           {[ "detailedMessage" :=
              Py.Dict {[ "markdown" := Py.Str "Build #42 passed" ]} ]}
           {[ "markdown" := Py.Str "Build #42 passed" ]}
           "html" (Py.Str "<b>Build #42 passed</b>")).
  - reflexivity.
  - discriminate.
Defined.

Lemma equal_bodies_witness :
  exists (x1 x2 : Py.value) (m : string),
    Py.getitem build42 "detailedMessage" = inr x1 /\
    Py.getitem x1 "markdown" = inr (Py.Str m) /\
    Py.getitem build42_with_id "detailedMessage" = inr x2 /\
    Py.getitem x2 "markdown" = inr (Py.Str m).
Proof.
  apply (equal_bodies_have_equal_markdown
           build42 build42_with_id build42_body); reflexivity.
Defined.

Lemma payload_of_declared_type_witness :
  conforms payload_annotation
    (Py.Dict {[ "detailedMessage" := Py.List [Py.Dict ∅] ]}) = true /\
  exists e,
    api_azuredevops_webhook (C := sample_platform)
      (sample_request "typed" ∅) bot
      (Py.Dict {[ "detailedMessage" := Py.List [Py.Dict ∅] ]}) "coverage" start
    = (inl e, start) /\
    (e = Py.KeyError "detailedMessage" \/ e = Py.KeyError "markdown" \/
     e = Py.TypeError).
Proof.
  split; [reflexivity|].
  apply (@payload_of_declared_type_is_never_delivered sample_platform).
  reflexivity.
Defined.

Lemma without_a_call_witness :
  exists e,
    api_azuredevops_webhook (C := sample_platform)
      (sample_request "empty" ∅) bot no_markdown "coverage" start
    = (inl e, start) /\
    (e = Py.KeyError "detailedMessage" \/ e = Py.KeyError "markdown" \/
     e = Py.TypeError).
Proof.
  apply (@without_a_call_the_lookup_has_raised sample_platform).
  reflexivity.
Defined.

Lemma serve_witness :
  exists new : list (Delivery (C := sample_platform) * option Py.exn),
    calls (serve three_requests start) = calls start ++ new /\
    fst <$> new
    = [ sample_call (sample_request build42_text ∅) bot "coverage" build42_body;
        sample_call (sample_request build42_text {[ "topic" := "ci-results" ]})
          bot "ci-results" build42_body ].
Proof.
  apply (@serve_logs_one_call_per_readable_payload sample_platform
           three_requests start).
Defined.
